(** * memento-mcp: the embedding subsystem

    A shallow embedding of

    - [OllamaEmbeddingService] (src/embeddings/OllamaEmbeddingService.ts):
      the constructor, [_normalizeVector], [generateEmbedding],
      [generateEmbeddings], [getModelInfo], [_getErrorMessage];
    - [EmbeddingServiceFactory]: [registerProvider], [resetRegistry],
      [createService], [createFromEnvironment] and the built-in
      registrations.

    Conventions.
    - A JavaScript [number] is an IEEE 754 binary64 value: the kernel's
      primitive [float].  [_normalizeVector] is written once over the
      operations it uses and read at two instances: binary64 (what the
      program runs) and the real numbers (what the arithmetic means when
      nothing is rounded).
    - Strings are Rocq strings; [toLowerCase] acts on the ASCII letters.
    - A method that performs effects or may throw is a computation in the
      monad [M]: a state carrying the outside world and the trace of the
      calls made so far, and an outcome that is a value or a thrown error.
      Each response of the endpoint is a fresh value.
    - Calls to the logger are left out: they return nothing, and their
      arguments are evaluated where the model evaluates them (the call of
      [getModelInfo] inside [createService]).
    - The static field [providers] is a finite map from keys to
      constructors, looked up the way a property of an object created by
      [{}] is: own properties first, then [Object.prototype]. *)

From Stdlib Require Import Ascii String Floats Reals Lra.
From stdpp Require Import gmap strings list pretty.

Set Warnings "-inexact-float,-register-all".
Set Default Proof Using "Type".

(* ===================================================================== *)
(** * Arrays and loops *)
(* ===================================================================== *)

(** [for (let i = start; i < start + n; i++) s = body i s]. *)
Fixpoint for_loop {S : Type} (body : nat → S → S) (start n : nat) (s : S) : S :=
  match n with
  | O => s
  | Datatypes.S n' => for_loop body (Datatypes.S start) n' (body start s)
  end.

(** [vector[0] = x]: the store overwrites index 0 of a non-empty array and
    extends the empty array to length 1. *)
Definition store_first {A : Type} (x : A) (vector : list A) : list A :=
  match vector with
  | [] => [x]
  | _ :: rest => x :: rest
  end.

(* ===================================================================== *)
(** * Numbers *)
(* ===================================================================== *)

(** The operations [_normalizeVector] performs on numbers. *)
Class Number (num : Type) := {
  num_zero : num;
  num_one : num;
  num_add : num → num → num;
  num_mul : num → num → num;
  num_div : num → num → num;
  num_sqrt : num → num;
  (** [a > b] *)
  num_gt : num → num → bool
}.

(** IEEE 754 binary64, the arithmetic of JavaScript. *)
#[export] Instance binary64 : Number float := {|
  num_zero := 0%float;
  num_one := 1%float;
  num_add := PrimFloat.add;
  num_mul := PrimFloat.mul;
  num_div := PrimFloat.div;
  num_sqrt := PrimFloat.sqrt;
  num_gt a b := PrimFloat.ltb b a
|}.

(** Exact arithmetic on the reals. *)
#[export] Instance exact : Number R := {|
  num_zero := 0%R;
  num_one := 1%R;
  num_add := Rplus;
  num_mul := Rmult;
  num_div := Rdiv;
  num_sqrt := R_sqrt.sqrt;
  num_gt a b := if Rlt_dec b a then true else false
|}.



Module Normalize.
Section Generic.
Context {num : Type} `{Number num}.

(** The body of the first loop: [magnitude += vector[i] * vector[i]].
    The loop keeps [i] below [vector.length], so the read is in range. *)
Definition accumulate (vector : list num) (i : nat) (magnitude : num) : num :=
  match vector !! i with
  | Some x => num_add magnitude (num_mul x x)
  | None => magnitude
  end.

(** The body of the second loop: [vector[i] /= magnitude]. *)
Definition divide (magnitude : num) (i : nat) (vector : list num) : list num :=
  match vector !! i with
  | Some x => <[i := num_div x magnitude]> vector
  | None => vector
  end.

(** [Math.sqrt] of the sum of the squares: the value of [magnitude] after
    line 203. *)
Definition magnitude_of (vector : list num) : num :=
  num_sqrt (for_loop (accumulate vector) 0 (length vector) num_zero).

(** [_normalizeVector(vector)]: the contents of the array after the call. *)
Definition _normalizeVector (vector : list num) : list num :=
  let magnitude := magnitude_of vector in
  if num_gt magnitude num_zero
  then for_loop (divide magnitude) 0 (length vector) vector
  else store_first num_one vector.

(** One step of the sum of squares, as the function of a fold. *)
Definition add_square (magnitude x : num) : num := num_add magnitude (num_mul x x).
End Generic.
End Normalize.

Import Normalize.


(* ===================================================================== *)
(** * The JavaScript runtime: strings, values, errors *)
(* ===================================================================== *)

Module Js.

(** The double quote, as a one-character string. *)
Definition dquote : string := String (ascii_of_nat 34) EmptyString.

Definition lower_ascii (c : ascii) : ascii :=
  let n := nat_of_ascii c in
  if (65 <=? n)%nat && (n <=? 90)%nat then ascii_of_nat (n + 32) else c.

(** [s.toLowerCase()] *)
Fixpoint toLowerCase (s : string) : string :=
  match s with
  | EmptyString => EmptyString
  | String c rest => String (lower_ascii c) (toLowerCase rest)
  end.

(** [s.substring(0, n)] *)
Definition substring0 (n : nat) (s : string) : string := String.substring 0 n s.

(** [s || d] on an optional string: [undefined] and the empty string are
    falsy. *)
Definition or_default (s : option string) (d : string) : string :=
  match s with
  | Some (String c rest) => String c rest
  | Some EmptyString | None => d
  end.

(** The values a response body is made of.  An array holds numbers, as the
    interface [OllamaEmbeddingResponse] declares the only array of a body. *)
Inductive Value :=
| Undefined
| Null
| Bool (b : bool)
| Num (x : float)
| Str (s : string)
| Arr (elements : list float)
| Obj (fields : list (string * Value)).

(** [!!v] *)
Definition truthy (v : Value) : bool :=
  match v with
  | Undefined | Null => false
  | Bool b => b
  | Num x => negb (PrimFloat.eqb x 0 || PrimFloat.is_nan x)
  | Str s => negb (bool_decide (s = EmptyString))
  | Arr _ | Obj _ => true
  end.

(** [Array.isArray(v)] *)
Definition isArray (v : Value) : bool :=
  match v with Arr _ => true | _ => false end.

Fixpoint assoc (key : string) (fields : list (string * Value)) : Value :=
  match fields with
  | [] => Undefined
  | (k, v) :: rest => if bool_decide (k = key) then v else assoc key rest
  end.

(** [v.key] on a value that is neither [null] nor [undefined]: a field of an
    object, [undefined] on anything else. *)
Definition get (v : Value) (key : string) : Value :=
  match v with
  | Obj fields => assoc key fields
  | _ => Undefined
  end.

(** What the error of a rejected request carries in [error.response]. *)
Record ErrorResponse := {
  status : option nat;
  data : Value
}.

(** The values a [throw] or a rejected promise carries. *)
Inductive Thrown :=
| Error (message : string)       (** [new Error(message)] *)
| TypeError (message : string)   (** raised by the runtime *)
| AxiosError (message : string) (response : option ErrorResponse)
                                 (** an [Error] with [isAxiosError] set *)
| Other (printed : string).      (** not an [Error]; [String(v)] is [printed] *)

Inductive Outcome (A : Type) :=
| Returned (a : A)
| Threw (e : Thrown).
Arguments Returned {A} a.
Arguments Threw {A} e.

End Js.

Import Js.

(* ===================================================================== *)
(** * The outside world and the monad of effects *)
(* ===================================================================== *)

(** The body and target of [axios.post(apiEndpoint, {prompt, model}, ...)];
    the header and the timeout are constants. *)
Record Request := {
  url : string;
  prompt : string;
  req_model : string
}.

Inductive AxiosOutcome :=
| Resolved (data : Value)     (** [response.data] of a fulfilled request *)
| Rejected (error : Thrown).

(** What the program does not define itself: the state of everything
    outside it, the endpoint reached through [axios.post], and
    [JSON.stringify]. *)
Class Runtime := {
  World : Type;
  axios_post : Request → World → AxiosOutcome * World;
  JSON_stringify : Value → string
}.

Inductive Event :=
| Posted (req : Request)                (** line 74 *)
| Normalized (vector : list float).     (** line 109, with the array passed *)

Section Effects.
Context `{Runtime}.

Record State := {
  world : World;
  trace : list Event
}.

Definition M (A : Type) : Type := State → Outcome A * State.

Definition ret {A} (a : A) : M A := λ st, (Returned a, st).

Definition throw {A} (e : Thrown) : M A := λ st, (Threw e, st).

Definition bind {A B} (m : M A) (k : A → M B) : M B :=
  λ st, match m st with
        | (Returned a, st') => k a st'
        | (Threw e, st') => (Threw e, st')
        end.

(** [try { body } catch (error) { handler }] *)
Definition try_catch {A} (body : M A) (handler : Thrown → M A) : M A :=
  λ st, match body st with
        | (Returned a, st') => (Returned a, st')
        | (Threw e, st') => handler e st'
        end.

Definition record (ev : Event) : M unit :=
  λ st, (Returned (), {| world := world st; trace := trace st ++ [ev] |}).

(** [await axios.post(...)], giving [response.data]. *)
Definition post (req : Request) : M Value :=
  bind (record (Posted req)) (λ _ st,
    let (out, w) := axios_post req (world st) in
    let st' := {| world := w; trace := trace st |} in
    match out with
    | Resolved d => (Returned d, st')
    | Rejected e => (Threw e, st')
    end).

End Effects.

#[export] Instance M_ret `{Runtime} : MRet M := @ret _.
#[export] Instance M_bind `{Runtime} : MBind M := λ A B k m, bind m k.

(* ===================================================================== *)
(** * The contract of an embedding service *)
(* ===================================================================== *)

Module Contract.

(** [EmbeddingModelInfo] *)
Record EmbeddingModelInfo := {
  name : string;
  dimensions : float;
  version : string
}.

(** The abstract class [EmbeddingService]: an object with the three methods
    of the contract. *)
Record EmbeddingService `{Runtime} := {
  generateEmbedding : string → M (list float);
  generateEmbeddings : list string → M (list (list float));
  getModelInfo : M EmbeddingModelInfo
}.

End Contract.

(* ===================================================================== *)
(** * OllamaEmbeddingService *)
(* ===================================================================== *)

Module OllamaEmbeddingService.

(** [OllamaEmbeddingConfig] *)
Record OllamaEmbeddingConfig := {
  cfg_apiEndpoint : option string;
  cfg_model : option string;
  cfg_dimensions : option float;
  cfg_version : option string
}.

(** The private fields of an instance. *)
Record Instance := {
  model : string;
  dimensions : float;
  version : string;
  apiEndpoint : string
}.

(** [n || d] on an optional number: [undefined], zero and NaN are falsy. *)
Definition number_or_default (n : option float) (d : float) : float :=
  match n with
  | Some x => if truthy (Num x) then x else d
  | None => d
  end.

(** The constructor, lines 51-58. *)
Definition constructor (config : OllamaEmbeddingConfig) : Instance := {|
  model := or_default (cfg_model config) "mxbai-embed-large";
  dimensions := number_or_default (cfg_dimensions config) 1024;
  version := or_default (cfg_version config) "1.0.0";
  apiEndpoint := or_default (cfg_apiEndpoint config) "http://localhost:11434/api/embeddings"
|}.

(** [_getErrorMessage], lines 184-189. *)
Definition _getErrorMessage (error : Thrown) : string :=
  match error with
  | Error message | TypeError message | AxiosError message _ => message
  | Other printed => printed
  end.

Section Methods.
Context `{Runtime}.

(** [this._normalizeVector(embedding)] at line 109: the array is normalized
    in place; the computation gives its contents after the call. *)
Definition normalize_in_place (embedding : list float) : M (list float) :=
  _ ← record (Normalized embedding);
  mret (_normalizeVector embedding).

(** The request of lines 74-86. *)
Definition request_of (this : Instance) (text : string) : Request :=
  {| url := apiEndpoint this; prompt := text; req_model := model this |}.

(** The body of the [try] block, lines 74-115. *)
Definition request_and_validate (this : Instance) (text : string) : M (list float) :=
  response_data ← post (request_of this text);
  if negb (truthy response_data) || negb (truthy (get response_data "embedding"))
  then throw (Error "Invalid response from Ollama API - missing embedding data")
  else
    let embedding := get response_data "embedding" in
    if negb (truthy embedding) || negb (isArray embedding)
    then throw (Error "Invalid embedding returned from Ollama API")
    else
      match embedding with
      | Arr elements =>
          if bool_decide (length elements = 0%nat)
          then throw (Error "Invalid embedding returned from Ollama API")
          else normalize_in_place elements
      | _ => throw (Error "Invalid embedding returned from Ollama API")
      end.

(** [statusCode || 'unknown'] *)
Definition status_text (statusCode : option nat) : string :=
  match statusCode with
  | Some (S n) => pretty (S n)
  | Some O | None => "unknown"
  end.

(** The [catch] block, lines 116-147. *)
Definition handle_error (error : Thrown) : M (list float) :=
  match error with
  | AxiosError message response =>
      let statusCode := response ≫= status in
      let responseData := from_option data Undefined response in
      let errorDetails :=
        if truthy responseData
        then ": " +:+ substring0 200 (JSON_stringify responseData)
        else EmptyString in
      throw (Error ("Ollama API error (" +:+ status_text statusCode +:+ ")" +:+ errorDetails))
  | _ =>
      let errorMessage := _getErrorMessage error in
      throw (Error ("Error generating embedding: " +:+ errorMessage))
  end.

(** [generateEmbedding(text)], lines 66-148. *)
Definition generateEmbedding (this : Instance) (text : string) : M (list float) :=
  try_catch (request_and_validate this text) handle_error.

(** The loop of [generateEmbeddings], lines 158-160, with the array
    [embeddings] filled so far. *)
Fixpoint generateEmbeddings_loop (this : Instance) (texts : list string)
    (embeddings : list (list float)) : M (list (list float)) :=
  match texts with
  | [] => mret embeddings
  | text :: rest =>
      embedding ← generateEmbedding this text;
      generateEmbeddings_loop this rest (embeddings ++ [embedding])
  end.

(** [generateEmbeddings(texts)], lines 156-162. *)
Definition generateEmbeddings (this : Instance) (texts : list string) : M (list (list float)) :=
  generateEmbeddings_loop this texts [].

(** [getModelInfo()], lines 169-175. *)
Definition getModelInfo (this : Instance) : Contract.EmbeddingModelInfo := {|
  Contract.name := model this;
  Contract.dimensions := dimensions this;
  Contract.version := version this
|}.

(** [new OllamaEmbeddingService(config)] as an [EmbeddingService]. *)
Definition new (config : OllamaEmbeddingConfig) : Contract.EmbeddingService :=
  let this := constructor config in {|
    Contract.generateEmbedding := generateEmbedding this;
    Contract.generateEmbeddings := generateEmbeddings this;
    Contract.getModelInfo := mret (getModelInfo this)
  |}.

End Methods.
End OllamaEmbeddingService.

(* ===================================================================== *)
(** * EmbeddingServiceFactory *)
(* ===================================================================== *)

Module EmbeddingServiceFactory.

(** [EmbeddingServiceConfig], without the open set of extension fields. *)
Record EmbeddingServiceConfig := {
  provider : option string;
  model : option string;
  dimensions : option float;
  apiKey : option string;
  apiEndpoint : option string
}.

(** The configuration [OpenAIEmbeddingService] is constructed from. *)
Record OpenAIEmbeddingConfig := {
  openai_apiKey : string;
  openai_model : option string;
  openai_dimensions : option float;
  openai_apiEndpoint : option string
}.

(** The two provider classes the factory imports from files of their own.
    [DefaultEmbeddingService] is the synthetic provider, which is always
    constructible and needs no field; the constructor of
    [OpenAIEmbeddingService] is a computation and may throw. *)
Class ProviderClasses `{Runtime} := {
  DefaultEmbeddingService : option float → Contract.EmbeddingService;
  OpenAIEmbeddingService : OpenAIEmbeddingConfig → M Contract.EmbeddingService
}.

Section Factory.
Context `{Runtime}.

(** [EmbeddingServiceProvider] *)
Definition EmbeddingServiceProvider : Type :=
  EmbeddingServiceConfig → M Contract.EmbeddingService.

(** What [providers[key]] evaluates to.  The static field [providers] is
    held as the finite map of its own properties.  The object is created by
    [{}], so a key that is not an own property is looked up in
    [Object.prototype], whose only members with a lower-case name are
    [constructor] and [__proto__]. *)
Inductive Member :=
| Own (providerFn : EmbeddingServiceProvider)
| ObjectConstructor     (** [Object.prototype.constructor], the function [Object] *)
| ObjectPrototype       (** [providers.__proto__], an object that is not callable *)
| Missing.              (** [undefined] *)

Definition member (providers : gmap string EmbeddingServiceProvider) (key : string) : Member :=
  match providers !! key with
  | Some providerFn => Own providerFn
  | None =>
      if bool_decide (key = "constructor") then ObjectConstructor
      else if bool_decide (key = "__proto__") then ObjectPrototype
      else Missing
  end.


(** [registerProvider(name, provider)], lines 39-41. *)
Definition registerProvider (name : string) (provider : EmbeddingServiceProvider)
    (providers : gmap string EmbeddingServiceProvider)
    : gmap string EmbeddingServiceProvider :=
  <[toLowerCase name := provider]> providers.

(** [resetRegistry()], lines 46-48. *)
Definition resetRegistry (providers : gmap string EmbeddingServiceProvider)
    : gmap string EmbeddingServiceProvider := ∅.

(** [(config.provider || 'default').toLowerCase()], line 67. *)
Definition providerName_of (config : EmbeddingServiceConfig) : string :=
  toLowerCase (or_default (provider config) "default").

(** The message of the error of line 93. *)
Definition not_registered (providerName : string) : string :=
  "Provider " +:+ dquote +:+ providerName +:+ dquote +:+ " is not registered".

(** [createService(config)], lines 66-94. *)
Definition createService (config : EmbeddingServiceConfig) (providers : gmap string EmbeddingServiceProvider)
    : M Contract.EmbeddingService :=
  let providerName := providerName_of config in
  match member providers providerName with
  | Own providerFn =>
      try_catch
        (service ← providerFn config;
         _ ← Contract.getModelInfo service;
         mret service)
        (λ error, throw error)
  | ObjectConstructor =>
      (* [Object(config)] is [config] itself, and [config.getModelInfo] is
         not a function; the message is V8's *)
      try_catch
        (throw (TypeError "service.getModelInfo is not a function"))
        (λ error, throw error)
  | ObjectPrototype =>
      try_catch
        (throw (TypeError "providerFn is not a function"))
        (λ error, throw error)
  | Missing => throw (Error (not_registered providerName))
  end.

Context `{!ProviderClasses}.

(** The configuration of lines 115-121, read from [process.env]. *)
Definition config_of_environment (env : gmap string string) : EmbeddingServiceConfig := {|
  provider := Some (or_default (env !! "EMBEDDING_PROVIDER") "default");
  apiKey := env !! "OPENAI_API_KEY";
  apiEndpoint := env !! "OLLAMA_API_ENDPOINT";
  model := env !! "EMBEDDING_MODEL";
  dimensions := None
|}.

(** [createFromEnvironment()], lines 101-137. *)
Definition createFromEnvironment (env : gmap string string) (providers : gmap string EmbeddingServiceProvider)
    : M Contract.EmbeddingService :=
  let useMockEmbeddings := bool_decide (env !! "MOCK_EMBEDDINGS" = Some "true") in
  if useMockEmbeddings
  then mret (DefaultEmbeddingService None)
  else
    let config := config_of_environment env in
    try_catch
      (service ← createService config providers;
       _ ← Contract.getModelInfo service;
       _ ← Contract.getModelInfo service;
       mret service)
      (λ error, mret (DefaultEmbeddingService None)).

(** The built-in registrations, lines 173-196. *)
Definition default_provider : EmbeddingServiceProvider :=
  λ config, mret (DefaultEmbeddingService (dimensions config)).

Definition openai_provider : EmbeddingServiceProvider :=
  λ config,
    match apiKey config with
    | Some (String c rest) =>
        OpenAIEmbeddingService {|
          openai_apiKey := String c rest;
          openai_model := model config;
          openai_dimensions := dimensions config;
          openai_apiEndpoint := apiEndpoint config
        |}
    | Some EmptyString | None =>
        throw (Error "API key is required for OpenAI embedding service")
    end.

Definition ollama_provider : EmbeddingServiceProvider :=
  λ config,
    mret (OllamaEmbeddingService.new {|
      OllamaEmbeddingService.cfg_apiEndpoint := apiEndpoint config;
      OllamaEmbeddingService.cfg_model := model config;
      OllamaEmbeddingService.cfg_dimensions := dimensions config;
      OllamaEmbeddingService.cfg_version := None
    |}).

(** The registry once the module is loaded. *)
Definition builtin_providers : gmap string EmbeddingServiceProvider :=
  registerProvider "ollama" ollama_provider
    (registerProvider "openai" openai_provider
      (registerProvider "default" default_provider ∅)).

(** [createOpenAIService(apiKey, model, dimensions, apiEndpoint)],
    lines 147-159: the constructor is called directly, without the registry
    and without the check of the key the provider [openai] makes. *)
Definition createOpenAIService (key : string) (model_name : option string)
    (dims : option float) (endpoint : option string) : M Contract.EmbeddingService :=
  OpenAIEmbeddingService {|
    openai_apiKey := key;
    openai_model := model_name;
    openai_dimensions := dims;
    openai_apiEndpoint := endpoint
  |}.

(** [createDefaultService(dimensions)], lines 167-169. *)
Definition createDefaultService (dims : option float) : Contract.EmbeddingService :=
  DefaultEmbeddingService dims.


End Factory.
End EmbeddingServiceFactory.

(* ===================================================================== *)
(** * What a run of the Ollama provider is observed by *)
(* ===================================================================== *)

Section Observations.
Context `{Runtime}.
Import OllamaEmbeddingService.

(** The state after a request was posted and answered. *)
Definition answered (st : State) (req : Request) (w : World) : State :=
  {| world := w; trace := trace st ++ [Posted req] |}.

(** The requests a trace holds, in the order they were posted. *)
Definition requests (events : list Event) : list Request :=
  omap (λ ev, match ev with Posted req => Some req | Normalized _ => None end) events.

(** [texts] are embedded one after the other, each from the state the
    previous call left, giving [vectors]. *)
Inductive in_order (this : Instance)
  : list string → State → list (list float) → State → Prop :=
| in_order_nil st : in_order this [] st [] st
| in_order_cons text rest st vector st' vectors st'' :
    generateEmbedding this text st = (Returned vector, st') →
    in_order this rest st' vectors st'' →
    in_order this (text :: rest) st (vector :: vectors) st''.

(** The two messages of an invalid response. *)
Definition invalid_message (message : string) : Prop :=
  message = "Invalid response from Ollama API - missing embedding data"
  ∨ message = "Invalid embedding returned from Ollama API".

End Observations.

(* ===================================================================== *)
(** * A scripted runtime, for examples *)
(* ===================================================================== *)

(** A runtime for examples: the world is the list of the replies still to
    come, and each request consumes the first of them. *)
Module Scripted.

Definition runtime : Runtime := {|
  World := list AxiosOutcome;
  axios_post := λ req replies,
    match replies with
    | [] => (Rejected (Other "no reply left"), [])
    | reply :: rest => (reply, rest)
    end;
  JSON_stringify := λ v, "{}"
|}.

Definition start (replies : list AxiosOutcome) : @State runtime :=
  {| world := replies : @World runtime; trace := [] |}.

(** [new OllamaEmbeddingService()] *)
Definition service : OllamaEmbeddingService.Instance :=
  OllamaEmbeddingService.constructor
    {| OllamaEmbeddingService.cfg_apiEndpoint := None;
       OllamaEmbeddingService.cfg_model := None;
       OllamaEmbeddingService.cfg_dimensions := None;
       OllamaEmbeddingService.cfg_version := None |}.

Definition embedding_body (elements : list float) : Value :=
  Obj [("embedding", Arr elements)].

End Scripted.

(** Provider classes and providers for examples. *)
Module ScriptedProviders.
Import EmbeddingServiceFactory.

(** A service that answers every text with the vector [[1]]. *)
Definition unit_service (model_name : string) (dims : float)
    : @Contract.EmbeddingService Scripted.runtime := {|
  Contract.generateEmbedding := λ _, mret [1%float];
  Contract.generateEmbeddings := λ texts, mret (map (λ _, [1%float]) texts);
  Contract.getModelInfo :=
    mret {| Contract.name := model_name;
            Contract.dimensions := dims;
            Contract.version := "1.0.0" |}
|}.

Definition classes : @ProviderClasses Scripted.runtime := {|
  DefaultEmbeddingService := λ dims, unit_service "mock" (default 1536%float dims);
  OpenAIEmbeddingService := λ config,
    mret (unit_service (or_default (openai_model config) "text-embedding-3-small")
                       (default 1536%float (openai_dimensions config)))
|}.

(** A constructor that succeeds with a service whose [getModelInfo] throws. *)
Definition broken_info : @EmbeddingServiceProvider Scripted.runtime :=
  λ _, mret {|
    Contract.generateEmbedding := λ _, mret [1%float];
    Contract.generateEmbeddings := λ texts, mret (map (λ _, [1%float]) texts);
    Contract.getModelInfo := throw (Error "model info unavailable")
  |}.

(** A constructor that always throws. *)
Definition failing : @EmbeddingServiceProvider Scripted.runtime :=
  λ _, throw (Error "cannot construct").

(** A constructor that always succeeds. *)
Definition custom : @EmbeddingServiceProvider Scripted.runtime :=
  λ _, mret (unit_service "custom" 3%float).

Definition only_provider (name : string) : EmbeddingServiceConfig := {|
  provider := Some name; model := None; dimensions := None;
  apiKey := None; apiEndpoint := None
|}.

End ScriptedProviders.

(* ===================================================================== *)
(** * Loops as folds and maps *)
(* ===================================================================== *)

Section LoopFacts.
Context {num : Type} `{Number num}.

Lemma accumulate_loop_from (done rest : list num) (magnitude : num) :
  for_loop (accumulate (done ++ rest)) (length done) (length rest) magnitude
  = fold_left add_square rest magnitude.
Proof.
  revert done magnitude.
  induction rest as [|x rest IH]; intros done magnitude; [reflexivity|].
  cbn [length for_loop fold_left].
  unfold accumulate at 2.
  rewrite list_lookup_middle by reflexivity.
  specialize (IH (done ++ [x]) (add_square magnitude x)).
  rewrite <- app_assoc, length_app, Nat.add_1_r in IH.
  exact IH.
Qed.

Lemma accumulate_loop (vector : list num) :
  for_loop (accumulate vector) 0 (length vector) num_zero
  = fold_left add_square vector num_zero.
Proof. exact (accumulate_loop_from [] vector num_zero). Qed.

Lemma divide_loop_from (magnitude : num) (done rest : list num) :
  for_loop (divide magnitude) (length done) (length rest) (done ++ rest)
  = done ++ map (λ x, num_div x magnitude) rest.
Proof.
  revert done.
  induction rest as [|x rest IH]; intros done; [reflexivity|].
  cbn [length for_loop map].
  unfold divide at 2.
  rewrite list_lookup_middle by reflexivity.
  rewrite insert_app_r_alt by lia.
  rewrite Nat.sub_diag. cbn [insert list_insert].
  specialize (IH (done ++ [num_div x magnitude])).
  rewrite <- !app_assoc, length_app, Nat.add_1_r in IH.
  exact IH.
Qed.

Lemma divide_loop (magnitude : num) (vector : list num) :
  for_loop (divide magnitude) 0 (length vector) vector
  = map (λ x, num_div x magnitude) vector.
Proof. exact (divide_loop_from magnitude [] vector). Qed.

Lemma normalize_unfold (vector : list num) :
  _normalizeVector vector =
    if num_gt (magnitude_of vector) num_zero
    then map (λ x, num_div x (magnitude_of vector)) vector
    else store_first num_one vector.
Proof. unfold _normalizeVector. cbv zeta. by rewrite divide_loop. Qed.

Lemma magnitude_unfold (vector : list num) :
  magnitude_of vector = num_sqrt (fold_left add_square vector num_zero).
Proof. unfold magnitude_of. by rewrite accumulate_loop. Qed.

End LoopFacts.

(* ===================================================================== *)
(** * Facts about binary64 *)
(* ===================================================================== *)

Section Binary64.
Open Scope float_scope.

Lemma eqb_zero_cases (x : float) :
  (x =? 0) = true → x = 0 ∨ x = -0.
Proof.
  rewrite FloatAxioms.eqb_spec. intros Hx.
  rewrite <- (SF2Prim_Prim2SF x).
  change (Prim2SF 0) with (S754_zero false) in Hx.
  destruct (Prim2SF x) as [[]|[]| |[] m e]; try discriminate Hx.
  - by right.
  - by left.
Qed.

Lemma add_square_zero (x : float) :
  (x =? 0) = true → add_square (num := float) 0 x = 0.
Proof. intros [->| ->]%eqb_zero_cases; reflexivity. Qed.

Lemma sum_squares_zero (vector : list float) :
  Forall (λ x, (x =? 0) = true) vector →
  fold_left add_square vector 0 = 0.
Proof.
  induction 1 as [|x rest Hx _ IH]; [reflexivity|].
  cbn [fold_left]. by rewrite add_square_zero.
Qed.




End Binary64.

(* ===================================================================== *)
(** * Facts about exact arithmetic *)
(* ===================================================================== *)

Section Exact.
Open Scope R_scope.








End Exact.

(* ===================================================================== *)
(** * Normalization *)
(* ===================================================================== *)

Section NormalizeClaims.




(** C2, counterexample.  The empty vector has no non-zero component; the
    routine stores 1 at index 0 of it, and the result has length 1. *)
Lemma normalize_empty_grows :
  Forall (λ x, (x =? 0)%float = true) []
  ∧ _normalizeVector ([] : list float) = [1%float]
  ∧ length (_normalizeVector ([] : list float)) ≠ length ([] : list float).
Proof. repeat split; [constructor | discriminate]. Qed.

(** C2, as amended.  For every non-empty vector whose components are all
    zero (of either sign), the computed magnitude is zero, the comparison
    [magnitude > 0] fails so nothing is divided, and the result is the input
    with 1 stored at index 0: same length, first component 1, the other
    components unchanged and so zero. *)
Theorem normalize_zero_vector (vector : list float) :
  vector ≠ [] →
  Forall (λ x, (x =? 0)%float = true) vector →
  magnitude_of vector = 0%float
  ∧ num_gt (magnitude_of vector) num_zero = false
  ∧ _normalizeVector vector = 1%float :: tail vector
  ∧ length (_normalizeVector vector) = length vector
  ∧ Forall (λ x, (x =? 0)%float = true) (tail (_normalizeVector vector)).
Proof.
  intros Hne Hzero.
  assert (magnitude_of vector = 0%float) as Hm.
  { rewrite magnitude_unfold. cbn [num_zero binary64].
    by rewrite sum_squares_zero. }
  rewrite normalize_unfold, Hm.
  destruct vector as [|x rest]; [done|].
  repeat split; try reflexivity.
  cbn. by inversion Hzero.
Qed.

(** C2, witness: the vector [[0; -0; 0]]. *)
Lemma normalize_zero_vector_witness :
  _normalizeVector [0; -0; 0]%float = [1; -0; 0]%float.
Proof.
  refine (proj1 (proj2 (proj2 (normalize_zero_vector [0; -0; 0]%float _ _)))).
  - discriminate.
  - repeat constructor.
Defined.

End NormalizeClaims.

(* ===================================================================== *)
(** * The Ollama provider *)
(* ===================================================================== *)

Section OllamaFacts.
Context `{Runtime}.
Import OllamaEmbeddingService.

Lemma post_resolved (req : Request) (st : State) (d : Value) (w : World) :
  axios_post req (world st) = (Resolved d, w) →
  post req st = (Returned d, answered st req w).
Proof. intros Hpost. unfold post, bind, record. cbn. by rewrite Hpost. Qed.

Lemma post_rejected (req : Request) (st : State) (e : Thrown) (w : World) :
  axios_post req (world st) = (Rejected e, w) →
  post req st = (Threw e, answered st req w).
Proof. intros Hpost. unfold post, bind, record. cbn. by rewrite Hpost. Qed.

(** A body whose [embedding] field is a non-empty array is normalized and
    returned. *)
Lemma generateEmbedding_valid this text st fields (elements : list float) w :
  axios_post (request_of this text) (world st) = (Resolved (Obj fields), w) →
  assoc "embedding" fields = Arr elements →
  elements ≠ [] →
  generateEmbedding this text st =
    (Returned (_normalizeVector elements),
     {| world := w;
        trace := (trace st ++ [Posted (request_of this text)]) ++ [Normalized elements] |}).
Proof.
  intros Hpost Hfield Hne.
  unfold generateEmbedding, try_catch, request_and_validate.
  unfold mbind, M_bind, bind. rewrite (post_resolved _ _ _ _ Hpost).
  cbn [truthy get negb orb]. rewrite Hfield. cbn [truthy isArray negb orb].
  rewrite bool_decide_eq_false_2 by (by destruct elements).
  reflexivity.
Qed.

(** A body without an array in [embedding], or with an empty one, is
    refused before the call of [_normalizeVector] is reached. *)
Lemma generateEmbedding_invalid this text st d w :
  axios_post (request_of this text) (world st) = (Resolved d, w) →
  isArray (get d "embedding") = false ∨ get d "embedding" = Arr [] →
  ∃ message,
    invalid_message message
    ∧ generateEmbedding this text st =
        (Threw (Error ("Error generating embedding: " +:+ message)),
         answered st (request_of this text) w).
Proof.
  intros Hpost Hbad.
  unfold generateEmbedding, try_catch, request_and_validate.
  unfold mbind, M_bind, bind. rewrite (post_resolved _ _ _ _ Hpost).
  destruct (negb (truthy d) || negb (truthy (get d "embedding"))) eqn:Hfirst.
  { eexists. split; [by left|]. reflexivity. }
  cbv zeta.
  destruct (negb (truthy (get d "embedding")) || negb (isArray (get d "embedding"))) eqn:Hsecond.
  { eexists. split; [by right|]. reflexivity. }
  destruct Hbad as [Harr| ->].
  - rewrite Harr, orb_true_r in Hsecond. discriminate.
  - eexists. split; [by right|]. reflexivity.
Qed.

End OllamaFacts.


Section OllamaClaims.
Context `{Runtime}.
Import OllamaEmbeddingService.

(** C6.  When the endpoint answers with a body that has no [embedding]
    field, or whose [embedding] is not an array, or whose [embedding] is an
    empty array, [generateEmbedding] throws an error whose message is one of
    the two invalid-response messages (behind the prefix the [catch] block
    adds); it returns no vector, and the only call it has made is the
    request: [_normalizeVector] was not called. *)
Theorem generateEmbedding_rejects_invalid_response this text st d w :
  axios_post (request_of this text) (world st) = (Resolved d, w) →
  get d "embedding" = Undefined
  ∨ isArray (get d "embedding") = false
  ∨ get d "embedding" = Arr [] →
  ∃ message st',
    generateEmbedding this text st =
      (Threw (Error ("Error generating embedding: " +:+ message)), st')
    ∧ invalid_message message
    ∧ world st' = w
    ∧ trace st' = trace st ++ [Posted (request_of this text)]
    ∧ ∀ vector, Normalized vector ∉ drop (length (trace st)) (trace st').
Proof.
  intros Hpost Hbad.
  destruct (generateEmbedding_invalid this text st d w Hpost) as (message & Hmsg & Hrun).
  { destruct Hbad as [Hu|[Ha|He]]; [left; by rewrite Hu|by left|by right]. }
  exists message, (answered st (request_of this text) w).
  repeat split; try done.
  intros vector. cbn. rewrite drop_app_length.
  intros Hin%list_elem_of_singleton. discriminate.
Qed.

(** C7.  When the endpoint answers with the body [{ embedding: [3, 4] }],
    [generateEmbedding] returns [[0.6, 0.8]]. *)
Theorem generateEmbedding_three_four this text st w :
  axios_post (request_of this text) (world st)
    = (Resolved (Obj [("embedding", Arr [3; 4]%float)]), w) →
  generateEmbedding this text st =
    (Returned [0.6; 0.8]%float,
     {| world := w;
        trace := trace st ++ [Posted (request_of this text); Normalized [3; 4]%float] |}).
Proof.
  intros Hpost.
  rewrite (generateEmbedding_valid this text st _ [3; 4]%float w Hpost eq_refl)
    by discriminate.
  by rewrite <- app_assoc.
Qed.

(** C10.  On the empty vector the computed magnitude is 0, the comparison
    [magnitude > 0] fails, 1 is stored at index 0 and the result has length
    1, not the length 0 of the input.  [generateEmbedding] does not reach
    this case: a body whose [embedding] is the empty array is refused with
    the request as the only call made. *)
Theorem normalize_empty_unreachable :
  (magnitude_of ([] : list float) = 0%float
   ∧ num_gt (magnitude_of ([] : list float)) num_zero = false
   ∧ _normalizeVector ([] : list float) = [1%float]
   ∧ length (_normalizeVector ([] : list float)) = 1%nat
   ∧ length (_normalizeVector ([] : list float)) ≠ length ([] : list float))
  ∧ ∀ this text st d w,
      axios_post (request_of this text) (world st) = (Resolved d, w) →
      get d "embedding" = Arr [] →
      generateEmbedding this text st =
        (Threw (Error "Error generating embedding: Invalid embedding returned from Ollama API"),
         answered st (request_of this text) w).
Proof.
  split; [by repeat split|].
  intros this text st d w Hpost Hempty.
  unfold generateEmbedding, try_catch, request_and_validate.
  unfold mbind, M_bind, bind. rewrite (post_resolved _ _ _ _ Hpost).
  rewrite Hempty. cbn [truthy isArray negb orb].
  destruct d; try discriminate Hempty. reflexivity.
Qed.

End OllamaClaims.

(** C6, witness: a body without the field [embedding]. *)
Lemma generateEmbedding_rejects_invalid_response_witness :
  ∃ message st',
    OllamaEmbeddingService.generateEmbedding Scripted.service "hello"
      (Scripted.start [Resolved (Obj [("model", Str "mxbai-embed-large")])])
    = (Threw (Error ("Error generating embedding: " +:+ message)), st')
    ∧ invalid_message message
    ∧ world st' = []
    ∧ trace st' = [Posted (OllamaEmbeddingService.request_of Scripted.service "hello")]
    ∧ ∀ vector, Normalized vector ∉ drop 0 (trace st').
Proof.
  apply (@generateEmbedding_rejects_invalid_response Scripted.runtime
           Scripted.service "hello"
           (Scripted.start [Resolved (Obj [("model", Str "mxbai-embed-large")])])
           (Obj [("model", Str "mxbai-embed-large")]) []).
  - reflexivity.
  - left. reflexivity.
Defined.

(** C7, witness: the scripted endpoint answers [{ embedding: [3, 4] }]. *)
Lemma generateEmbedding_three_four_witness :
  OllamaEmbeddingService.generateEmbedding Scripted.service "hello"
    (Scripted.start [Resolved (Scripted.embedding_body [3; 4]%float)])
  = (Returned [0.6; 0.8]%float,
     {| world := [] : @World Scripted.runtime;
        trace := [Posted (OllamaEmbeddingService.request_of Scripted.service "hello");
                  Normalized [3; 4]%float] |}).
Proof.
  apply (@generateEmbedding_three_four Scripted.runtime Scripted.service "hello"
           (Scripted.start [Resolved (Scripted.embedding_body [3; 4]%float)]) []).
  reflexivity.
Defined.

(** C10, witness: the scripted endpoint answers [{ embedding: [] }]. *)
Lemma normalize_empty_unreachable_witness :
  OllamaEmbeddingService.generateEmbedding Scripted.service "hello"
    (Scripted.start [Resolved (Scripted.embedding_body [])])
  = (Threw (Error "Error generating embedding: Invalid embedding returned from Ollama API"),
     {| world := [] : @World Scripted.runtime;
        trace := [Posted (OllamaEmbeddingService.request_of Scripted.service "hello")] |}).
Proof.
  apply (proj2 (@normalize_empty_unreachable Scripted.runtime) Scripted.service "hello"
           (Scripted.start [Resolved (Scripted.embedding_body [])])
           (Scripted.embedding_body []) []).
  - reflexivity.
  - reflexivity.
Defined.

Section Batch.
Context `{Runtime}.
Import OllamaEmbeddingService.

Lemma in_order_length this texts st vectors st' :
  in_order this texts st vectors st' → length vectors = length texts.
Proof. induction 1; cbn; congruence. Qed.

(** Each call posts exactly one request, before anything else. *)
Lemma generateEmbedding_requests this text st out st' :
  generateEmbedding this text st = (out, st') →
  requests (trace st') = requests (trace st) ++ [request_of this text].
Proof.
  unfold generateEmbedding, try_catch, request_and_validate.
  unfold mbind, M_bind, bind.
  destruct (axios_post (request_of this text) (world st)) as [[d|e] w] eqn:Hpost.
  2:{ rewrite (post_rejected _ _ _ _ Hpost).
      destruct e as [m|m|m r|p]; cbn; intros [= _ <-]; cbn;
        unfold requests; by rewrite omap_app. }
  rewrite (post_resolved _ _ _ _ Hpost).
  assert (requests (trace (answered st (request_of this text) w))
          = requests (trace st) ++ [request_of this text]) as Hreq.
  { cbn. unfold requests. by rewrite omap_app. }
  destruct (negb (truthy d) || negb (truthy (get d "embedding")));
    [cbn; by intros [= _ <-]|].
  cbv zeta.
  destruct (negb (truthy (get d "embedding")) || negb (isArray (get d "embedding")));
    [cbn; by intros [= _ <-]|].
  destruct (get d "embedding") as [| | | | |elements|];
    try (cbn; by intros [= _ <-]).
  destruct (bool_decide (length elements = 0%nat)); [cbn; by intros [= _ <-]|].
  cbn. intros [= _ <-]. cbn.
  unfold requests in *. rewrite omap_app. cbn. by rewrite app_nil_r.
Qed.

Lemma in_order_requests this texts st vectors st' :
  in_order this texts st vectors st' →
  requests (trace st') = requests (trace st) ++ map (request_of this) texts.
Proof.
  induction 1 as [st|t rest st v st1 vs st2 Hhead _ IH]; cbn.
  - by rewrite app_nil_r.
  - rewrite IH, (generateEmbedding_requests _ _ _ _ _ Hhead).
    by rewrite <- app_assoc.
Qed.

(** The loop from any point: the array filled so far is extended in order,
    or the first failing call ends the method. *)
Lemma generateEmbeddings_loop_run this texts embeddings st :
  (∃ vectors st',
      generateEmbeddings_loop this texts embeddings st
        = (Returned (embeddings ++ vectors), st')
      ∧ in_order this texts st vectors st')
  ∨ (∃ done text rest vectors st_i e st',
        texts = done ++ text :: rest
        ∧ in_order this done st vectors st_i
        ∧ generateEmbedding this text st_i = (Threw e, st')
        ∧ generateEmbeddings_loop this texts embeddings st = (Threw e, st')).
Proof.
  revert embeddings st.
  induction texts as [|text rest IH]; intros embeddings st.
  - left. exists [], st. rewrite app_nil_r. split; [reflexivity|constructor].
  - cbn [generateEmbeddings_loop]. unfold mbind, M_bind, bind.
    destruct (generateEmbedding this text st) as [[vector|e] st1] eqn:Hhead.
    + destruct (IH (embeddings ++ [vector]) st1)
        as [(vectors & st' & Hrun & Hord)
           |(done & t & rest' & vectors & st_i & e & st' & -> & Hord & Hfail & Hrun)].
      * left. exists (vector :: vectors), st'.
        rewrite Hrun, <- app_assoc. split; [reflexivity|].
        econstructor; eassumption.
      * right. exists (text :: done), t, rest', (vector :: vectors), st_i, e, st'.
        repeat split; try assumption. econstructor; eassumption.
    + right. exists [], text, rest, [], st, e, st1.
      repeat split; try assumption. constructor.
Qed.

(** C4.  [generateEmbeddings] embeds the texts one after the other in the
    order of the input, each call of [generateEmbedding] starting from the
    state the previous one left.  Either every call returns: then the
    result holds their vectors in the order of the texts, one per text, and
    the requests posted are those of the texts, in order.  Or some call
    throws: then the method throws that error, returns no vector, and no
    request is posted for the texts after the failing one. *)
Theorem generateEmbeddings_sequential this texts st :
  (∃ vectors st',
      generateEmbeddings this texts st = (Returned vectors, st')
      ∧ in_order this texts st vectors st'
      ∧ length vectors = length texts
      ∧ requests (trace st') = requests (trace st) ++ map (request_of this) texts)
  ∨ (∃ done text rest vectors st_i e st',
        texts = done ++ text :: rest
        ∧ in_order this done st vectors st_i
        ∧ generateEmbedding this text st_i = (Threw e, st')
        ∧ generateEmbeddings this texts st = (Threw e, st')
        ∧ requests (trace st')
          = requests (trace st) ++ map (request_of this) (done ++ [text])).
Proof.
  destruct (generateEmbeddings_loop_run this texts [] st)
    as [(vectors & st' & Hrun & Hord)
       |(done & text & rest & vectors & st_i & e & st' & -> & Hord & Hfail & Hrun)].
  - left. exists vectors, st'. repeat split; try assumption.
    + exact (in_order_length _ _ _ _ _ Hord).
    + exact (in_order_requests _ _ _ _ _ Hord).
  - right. exists done, text, rest, vectors, st_i, e, st'.
    repeat split; try assumption.
    rewrite (generateEmbedding_requests _ _ _ _ _ Hfail), (in_order_requests _ _ _ _ _ Hord).
    by rewrite map_app, <- app_assoc.
Qed.

End Batch.


(* ===================================================================== *)
(** * The factory *)
(* ===================================================================== *)

Section FactoryFacts.
Context `{Runtime}.
Import EmbeddingServiceFactory.

(** What [createService] does once [providers[providerName]] is the
    registered function [f]: construct, then read the model information. *)
Lemma createService_own config (providers : gmap string EmbeddingServiceProvider)
    (f : EmbeddingServiceProvider) st :
  providers !! providerName_of config = Some f →
  createService config providers st =
    match f config st with
    | (Returned service, st1) =>
        match Contract.getModelInfo service st1 with
        | (Returned _, st2) => (Returned service, st2)
        | (Threw e, st2) => (Threw e, st2)
        end
    | (Threw e, st1) => (Threw e, st1)
    end.
Proof.
  intros Hf. unfold createService. cbv zeta. unfold member. rewrite Hf.
  unfold try_catch, mbind, M_bind, bind, throw.
  destruct (f config st) as [[service|e] st1]; [|reflexivity].
  by destruct (Contract.getModelInfo service st1) as [[info|e] st2].
Qed.


End FactoryFacts.

Section FactoryClaims.
Context `{Runtime}.
Import EmbeddingServiceFactory.

(** C9.  When the registered constructor returns a service whose
    [getModelInfo] throws, [createService] throws that error, from the state
    the call of [getModelInfo] left: the method is called on the service the
    constructor has just produced, before [createService] returns. *)
Theorem createService_reads_model_info config
    (providers : gmap string EmbeddingServiceProvider)
    (f : EmbeddingServiceProvider) st service st1 e st2 :
  providers !! providerName_of config = Some f →
  f config st = (Returned service, st1) →
  Contract.getModelInfo service st1 = (Threw e, st2) →
  createService config providers st = (Threw e, st2).
Proof.
  intros Hf Hnew Hinfo.
  by rewrite (createService_own _ _ _ _ Hf), Hnew, Hinfo.
Qed.



Context `{!ProviderClasses}.

(** C3.  [createFromEnvironment] never throws: for every environment and
    registry it returns a service.  The service is the one [createService]
    returned, or a fresh [new DefaultEmbeddingService()]; it is the latter
    when the mock flag is set and whenever [createService] throws (an
    unregistered name, a constructor that throws, a [getModelInfo] that
    throws). *)
Theorem createFromEnvironment_never_throws env
    (providers : gmap string EmbeddingServiceProvider) st :
  ∃ service st',
    createFromEnvironment env providers st = (Returned service, st')
    ∧ (service = DefaultEmbeddingService None
       ∨ ∃ st1, createService (config_of_environment env) providers st
                = (Returned service, st1))
    ∧ (env !! "MOCK_EMBEDDINGS" = Some "true" →
       service = DefaultEmbeddingService None ∧ st' = st)
    ∧ (∀ e st1,
         env !! "MOCK_EMBEDDINGS" ≠ Some "true" →
         createService (config_of_environment env) providers st = (Threw e, st1) →
         service = DefaultEmbeddingService None ∧ st' = st1).
Proof.
  unfold createFromEnvironment. cbv zeta.
  destruct (bool_decide (env !! "MOCK_EMBEDDINGS" = Some "true")) eqn:Hmock.
  - apply bool_decide_eq_true_1 in Hmock.
    exists (DefaultEmbeddingService None), st.
    split; [reflexivity|]. split; [by left|]. split; [done|].
    intros e st1 Hno. by destruct Hno.
  - apply bool_decide_eq_false_1 in Hmock.
    unfold try_catch, mbind, M_bind, mret, M_ret, bind, ret.
    destruct (createService (config_of_environment env) providers st)
      as [[service|e] st1] eqn:Hcreate.
    + destruct (Contract.getModelInfo service st1) as [[info1|e1] st2];
        [destruct (Contract.getModelInfo service st2) as [[info2|e2] st3]|];
        eexists _, _; (split; [reflexivity|]);
        (split; [first [by left | right; by exists st1]|]);
        (split; [done|discriminate]).
    + exists (DefaultEmbeddingService None), st1.
      split; [reflexivity|]. split; [by left|]. split; [done|].
      by intros e' st' _ [= _ <-].
Qed.

End FactoryClaims.

Section FactoryExamples.
Import EmbeddingServiceFactory ScriptedProviders.
#[local] Existing Instance Scripted.runtime.
#[local] Existing Instance ScriptedProviders.classes.

(** C9, witness: a constructor whose service cannot report its model. *)
Lemma createService_reads_model_info_witness :
  createService (only_provider "Broken") (registerProvider "broken" broken_info ∅)
    (Scripted.start [])
  = (Threw (Error "model info unavailable"), Scripted.start []).
Proof.
  eapply (createService_reads_model_info (only_provider "Broken")
            (registerProvider "broken" broken_info ∅) broken_info (Scripted.start [])).
  - reflexivity.
  - reflexivity.
  - reflexivity.
Defined.





(** C3, witness: the environment names a provider whose constructor always
    throws; the call returns the default service, whose model information
    is that of the synthetic provider. *)
Lemma createFromEnvironment_never_throws_witness :
  ∃ service st',
    createFromEnvironment {[ "EMBEDDING_PROVIDER" := "Flaky" ]}
      (registerProvider "flaky" failing builtin_providers) (Scripted.start [])
    = (Returned service, st')
    ∧ service = DefaultEmbeddingService None
    ∧ st' = Scripted.start [].
Proof.
  destruct (createFromEnvironment_never_throws
              {[ "EMBEDDING_PROVIDER" := "Flaky" ]}
              (registerProvider "flaky" failing builtin_providers) (Scripted.start []))
    as (service & st' & Hrun & _ & _ & Hfail).
  exists service, st'. split; [exact Hrun|].
  apply (Hfail (Error "cannot construct")).
  - vm_compute. discriminate.
  - vm_compute. reflexivity.
Defined.

End FactoryExamples.

(* ===================================================================== *)
(** * Runs on the scripted runtime *)
(* ===================================================================== *)

Section Runs.
Import OllamaEmbeddingService EmbeddingServiceFactory ScriptedProviders.
#[local] Existing Instance Scripted.runtime.
#[local] Existing Instance ScriptedProviders.classes.

(** Three texts, three replies: the vectors come back in the order of the
    texts, each normalized. *)
Example generateEmbeddings_three_texts :
  fst (generateEmbeddings Scripted.service ["a"; "b"; "c"]
         (Scripted.start [Resolved (Scripted.embedding_body [3; 4]%float);
                          Resolved (Scripted.embedding_body [0; 0]%float);
                          Resolved (Scripted.embedding_body [2]%float)]))
  = Returned [[0.6; 0.8]; [1; 0]; [1]]%float.
Proof. vm_compute. reflexivity. Qed.

(** The second request is answered with status 500: the method throws, the
    third text is never requested and its reply is still in the world. *)
Example generateEmbeddings_second_fails :
  generateEmbeddings Scripted.service ["a"; "b"; "c"]
    (Scripted.start
       [Resolved (Scripted.embedding_body [3; 4]%float);
        Rejected (AxiosError "Request failed with status code 500"
                    (Some {| status := Some 500%nat; data := Str "overloaded" |}));
        Resolved (Scripted.embedding_body [2]%float)])
  = (Threw (Error "Ollama API error (500): {}"),
     {| world := [Resolved (Scripted.embedding_body [2]%float)] : @World Scripted.runtime;
        trace := [Posted (request_of Scripted.service "a"); Normalized [3; 4]%float;
                  Posted (request_of Scripted.service "b")] |}).
Proof. vm_compute. reflexivity. Qed.

(** A request that never reached the endpoint. *)
Example generateEmbedding_network_error :
  fst (generateEmbedding Scripted.service "a"
         (Scripted.start [Rejected (AxiosError "connect ECONNREFUSED" None)]))
  = Threw (Error "Ollama API error (unknown)").
Proof. vm_compute. reflexivity. Qed.

(** A vector with a NaN component: the magnitude is NaN, the comparison
    fails and 1 is stored at index 0. *)
Example normalize_nan : _normalizeVector [nan; 2]%float = [1; 2]%float.
Proof. reflexivity. Qed.

(** The built-in provider [ollama], requested as [Ollama]. *)
Example createService_ollama :
  match createService
          {| provider := Some "Ollama"; model := Some "nomic-embed-text";
             dimensions := None; apiKey := None; apiEndpoint := None |}
          builtin_providers (Scripted.start []) with
  | (Returned service, st) =>
      Contract.getModelInfo service st
      = (Returned {| Contract.name := "nomic-embed-text";
                     Contract.dimensions := 1024%float;
                     Contract.version := "1.0.0" |}, Scripted.start [])
  | (Threw _, _) => False
  end.
Proof. vm_compute. reflexivity. Qed.

(** After [resetRegistry], the built-in names are unknown too. *)
Example createService_after_reset :
  createService (only_provider "default") (resetRegistry builtin_providers)
    (Scripted.start [])
  = (Threw (Error (not_registered "default")), Scripted.start []).
Proof. vm_compute. reflexivity. Qed.

(** The provider [openai] without an API key: its constructor throws and
    the default service is returned. *)
Example createFromEnvironment_openai_without_key :
  createFromEnvironment {[ "EMBEDDING_PROVIDER" := "openai" ]} builtin_providers
    (Scripted.start [])
  = (Returned (DefaultEmbeddingService None), Scripted.start []).
Proof. vm_compute. reflexivity. Qed.

(** The mock flag bypasses the registry. *)
Example createFromEnvironment_mock :
  createFromEnvironment
    {[ "MOCK_EMBEDDINGS" := "true"; "EMBEDDING_PROVIDER" := "openai" ]} ∅
    (Scripted.start [])
  = (Returned (DefaultEmbeddingService None), Scripted.start []).
Proof. vm_compute. reflexivity. Qed.

End Runs.

(* ===================================================================== *)
(** * More on normalization *)
(* ===================================================================== *)

Section NormalizeMore.

Lemma nan_absorbs_add (a : float) : (a + nan)%float = nan.
Proof.
  apply Prim2SF_inj. rewrite FloatAxioms.add_spec.
  change (Prim2SF nan) with S754_nan.
  by destruct (Prim2SF a).
Qed.

Lemma add_square_nan_l (x : float) : add_square nan x = nan.
Proof.
  apply Prim2SF_inj. unfold add_square. cbn [num_add num_mul binary64].
  rewrite FloatAxioms.add_spec. reflexivity.
Qed.

Lemma add_square_nan_r (a : float) : add_square a nan = nan.
Proof.
  unfold add_square. cbn [num_add num_mul binary64].
  change (nan * nan)%float with nan. apply nan_absorbs_add.
Qed.

Lemma sum_squares_from_nan (vector : list float) :
  fold_left add_square vector nan = nan.
Proof.
  induction vector as [|x rest IH]; [reflexivity|].
  cbn [fold_left]. by rewrite add_square_nan_l.
Qed.

Lemma sum_squares_with_nan (vector : list float) (a : float) :
  nan ∈ vector → fold_left add_square vector a = nan.
Proof.
  intros Hin. revert a.
  induction vector as [|x rest IH]; intros a; [by apply elem_of_nil in Hin|].
  cbn [fold_left].
  apply elem_of_cons in Hin as [<-|Hin].
  - rewrite add_square_nan_r. apply sum_squares_from_nan.
  - by apply IH.
Qed.

(** X1.  In binary64 the result of [_normalizeVector] is never empty: it has
    the length of the input, except that the empty input gives a result of
    length 1. *)
Theorem normalize_length (vector : list float) :
  length (_normalizeVector vector) = max 1 (length vector)
  ∧ _normalizeVector vector ≠ [].
Proof.
  rewrite normalize_unfold.
  destruct vector as [|x rest]; [by split|].
  destruct (num_gt _ _); cbn [store_first map length]; split;
    rewrite ?length_map; done.
Qed.

(** X2.  A vector with a NaN component is not scaled: the sum of squares is
    NaN, the comparison [magnitude > 0] fails, and the routine stores 1 at
    index 0 and leaves the other components as they are. *)
Theorem normalize_nan_component (vector : list float) :
  nan ∈ vector →
  magnitude_of vector = nan
  ∧ _normalizeVector vector = 1%float :: tail vector.
Proof.
  intros Hin.
  assert (magnitude_of vector = nan) as Hm.
  { rewrite magnitude_unfold. cbn [num_zero num_sqrt binary64].
    by rewrite sum_squares_with_nan. }
  split; [exact Hm|].
  rewrite normalize_unfold, Hm.
  destruct vector as [|x rest]; [by apply elem_of_nil in Hin|reflexivity].
Qed.

(** X2, witness: NaN in the second place. *)
Lemma normalize_nan_component_witness :
  _normalizeVector [2; nan; 3]%float = [1; nan; 3]%float.
Proof.
  refine (proj2 (normalize_nan_component [2; nan; 3]%float _)).
  right. left.
Defined.

Open Scope R_scope.








End NormalizeMore.

(* ===================================================================== *)
(** * More on the Ollama provider *)
(* ===================================================================== *)

Section StringFacts.






End StringFacts.

Section OllamaMore.
Context `{Runtime}.
Import OllamaEmbeddingService.

(** What [generateEmbedding] does with each answer of the endpoint. *)
Lemma generateEmbedding_rejected this text st e w :
  axios_post (request_of this text) (world st) = (Rejected e, w) →
  generateEmbedding this text st
  = handle_error e (answered st (request_of this text) w).
Proof.
  intros Hpost.
  unfold generateEmbedding, try_catch, request_and_validate.
  unfold mbind, M_bind, bind. by rewrite (post_rejected _ _ _ _ Hpost).
Qed.

Lemma generateEmbedding_resolved this text st d w :
  axios_post (request_of this text) (world st) = (Resolved d, w) →
  (∃ elements,
      get d "embedding" = Arr elements ∧ elements ≠ []
      ∧ generateEmbedding this text st
        = (Returned (_normalizeVector elements),
           {| world := w;
              trace := (trace st ++ [Posted (request_of this text)])
                       ++ [Normalized elements] |}))
  ∨ (∃ message,
        invalid_message message
        ∧ generateEmbedding this text st
          = (Threw (Error ("Error generating embedding: " +:+ message)),
             answered st (request_of this text) w)).
Proof.
  intros Hpost.
  destruct (get d "embedding") as [| | | | |elements|] eqn:Hfield;
    try (right; apply (generateEmbedding_invalid this text st d w Hpost);
         left; by rewrite Hfield).
  destruct elements as [|x rest].
  - right. apply (generateEmbedding_invalid this text st d w Hpost). by right.
  - left. exists (x :: rest). split; [reflexivity|]. split; [discriminate|].
    destruct d as [| | | | | |fields]; try discriminate Hfield.
    exact (generateEmbedding_valid this text st fields (x :: rest) w Hpost Hfield
             ltac:(discriminate)).
Qed.


(** X5.  When [generateEmbedding] returns, the endpoint had answered with a
    body whose [embedding] is a non-empty array; the vector returned is that
    array normalized, it has the length of the array and is not empty, and
    the call has made one request and one normalization. *)
Theorem generateEmbedding_returns_normalized this text st vector st' :
  generateEmbedding this text st = (Returned vector, st') →
  ∃ d elements,
    fst (axios_post (request_of this text) (world st)) = Resolved d
    ∧ get d "embedding" = Arr elements
    ∧ elements ≠ []
    ∧ vector = _normalizeVector elements
    ∧ length vector = length elements
    ∧ vector ≠ []
    ∧ trace st' = trace st ++ [Posted (request_of this text); Normalized elements].
Proof.
  destruct (axios_post (request_of this text) (world st)) as [[d|err] w] eqn:Hpost.
  - destruct (generateEmbedding_resolved this text st d w Hpost)
      as [(elements & Hfield & Hne & ->)|(message & _ & ->)]; [|discriminate].
    intros [= <- <-]. exists d, elements.
    destruct (normalize_length elements) as [Hlen Hnonempty].
    repeat split; try done.
    + rewrite Hlen. destruct elements; [done|reflexivity].
    + cbn. by rewrite <- app_assoc.
  - rewrite (generateEmbedding_rejected _ _ _ _ _ Hpost).
    destruct err as [m|m|m r|p]; cbn; discriminate.
Qed.



(** X8.  Every call of [generateEmbedding], whatever its outcome, posts
    exactly one request: to the endpoint of the instance, with the model of
    the instance and the text as prompt.  It adds at most one more event to
    the trace. *)
Theorem generateEmbedding_one_request this text st :
  requests (trace (snd (generateEmbedding this text st)))
  = requests (trace st) ++ [{| url := apiEndpoint this; prompt := text;
                               req_model := model this |}]
  ∧ ∃ events,
      trace (snd (generateEmbedding this text st))
      = trace st ++ Posted (request_of this text) :: events
      ∧ length events ≤ 1.
Proof.
  split.
  - apply (generateEmbedding_requests this text st
             (fst (generateEmbedding this text st))).
    by destruct (generateEmbedding this text st).
  - destruct (axios_post (request_of this text) (world st)) as [[d|err] w] eqn:Hpost.
    + destruct (generateEmbedding_resolved this text st d w Hpost)
        as [(elements & _ & _ & ->)|(message & _ & ->)]; cbn.
      * exists [Normalized elements]. rewrite <- app_assoc. split; [reflexivity|cbn; lia].
      * exists []. split; [reflexivity|cbn; lia].
    + rewrite (generateEmbedding_rejected _ _ _ _ _ Hpost).
      exists []. split; [by destruct err|cbn; lia].
Qed.

End OllamaMore.

Section BatchMore.
Context `{Runtime}.
Import OllamaEmbeddingService.

(** The loop started with an array already filled gives what the loop
    started empty gives, behind that array. *)
Lemma generateEmbeddings_loop_from this texts embeddings st :
  generateEmbeddings_loop this texts embeddings st =
    match generateEmbeddings_loop this texts [] st with
    | (Returned vectors, st') => (Returned (embeddings ++ vectors), st')
    | (Threw e, st') => (Threw e, st')
    end.
Proof.
  revert embeddings st.
  induction texts as [|text rest IH]; intros embeddings st.
  - cbn. by rewrite app_nil_r.
  - cbn [generateEmbeddings_loop]. unfold mbind, M_bind, bind.
    destruct (generateEmbedding this text st) as [[vector|e] st1]; [|reflexivity].
    rewrite (IH (embeddings ++ [vector])), (IH ([] ++ [vector])).
    destruct (generateEmbeddings_loop this rest [] st1) as [[vectors|e] st2];
      [|reflexivity].
    by rewrite <- app_assoc.
Qed.

Lemma generateEmbeddings_loop_app this first second embeddings st :
  generateEmbeddings_loop this (first ++ second) embeddings st =
    match generateEmbeddings_loop this first embeddings st with
    | (Returned filled, st') => generateEmbeddings_loop this second filled st'
    | (Threw e, st') => (Threw e, st')
    end.
Proof.
  revert embeddings st.
  induction first as [|text rest IH]; intros embeddings st; [reflexivity|].
  cbn [app generateEmbeddings_loop]. unfold mbind, M_bind, bind.
  destruct (generateEmbedding this text st) as [[vector|e] st1]; [|reflexivity].
  apply IH.
Qed.

(** X9.  Embedding a list of texts cut in two is embedding the first part,
    then the second part from the state the first left, and joining the
    results; a failure in the first part ends the call before any text of
    the second part is requested.  On no text at all the result is the
    empty list and nothing is requested. *)
Theorem generateEmbeddings_app this first second st :
  generateEmbeddings this (first ++ second) st =
    match generateEmbeddings this first st with
    | (Returned vectors, st') =>
        match generateEmbeddings this second st' with
        | (Returned more, st'') => (Returned (vectors ++ more), st'')
        | (Threw e, st'') => (Threw e, st'')
        end
    | (Threw e, st') => (Threw e, st')
    end
  ∧ generateEmbeddings this [] st = (Returned [], st).
Proof.
  split; [|reflexivity].
  unfold generateEmbeddings. rewrite generateEmbeddings_loop_app.
  destruct (generateEmbeddings_loop this first [] st) as [[vectors|e] st1];
    [|reflexivity].
  apply generateEmbeddings_loop_from.
Qed.

End BatchMore.

Section ConstructorFacts.
Import OllamaEmbeddingService.


End ConstructorFacts.

Section OllamaMoreExamples.
Import OllamaEmbeddingService.


(** X5, witness: the endpoint answers [{ embedding: [0, 5] }]. *)
Lemma generateEmbedding_returns_normalized_witness :
  ∃ d elements,
    fst (@axios_post Scripted.runtime (request_of Scripted.service "hello")
           [Resolved (Scripted.embedding_body [0; 5]%float)]) = Resolved d
    ∧ get d "embedding" = Arr elements
    ∧ elements ≠ []
    ∧ [0; 1]%float = _normalizeVector elements
    ∧ length [0; 1]%float = length elements
    ∧ [0; 1]%float ≠ []
    ∧ [Posted (request_of Scripted.service "hello"); Normalized [0; 5]%float]
      = [] ++ [Posted (request_of Scripted.service "hello"); Normalized elements].
Proof.
  apply (@generateEmbedding_returns_normalized Scripted.runtime Scripted.service "hello"
           (Scripted.start [Resolved (Scripted.embedding_body [0; 5]%float)])
           [0; 1]%float
           {| world := [] : @World Scripted.runtime;
              trace := [Posted (request_of Scripted.service "hello");
                        Normalized [0; 5]%float] |}).
  reflexivity.
Defined.



End OllamaMoreExamples.

(* ===================================================================== *)
(** * More on the factory *)
(* ===================================================================== *)

Section FactoryMore.
Context `{Runtime}.
Import EmbeddingServiceFactory.



(** X12.  With the constructor [f] registered under the resolved name,
    [createService] has no fallback: what [f] throws is thrown on, from the
    state [f] left; and when [f] returns a service whose [getModelInfo]
    returns, that very service is returned. *)
Theorem createService_propagates config
    (providers : gmap string EmbeddingServiceProvider)
    (f : EmbeddingServiceProvider) st :
  providers !! providerName_of config = Some f →
  (∀ e st1, f config st = (Threw e, st1) →
     createService config providers st = (Threw e, st1))
  ∧ (∀ service st1 info st2,
       f config st = (Returned service, st1) →
       Contract.getModelInfo service st1 = (Returned info, st2) →
       createService config providers st = (Returned service, st2)).
Proof.
  intros Hf. rewrite (createService_own _ _ _ _ Hf).
  split.
  - by intros e st1 ->.
  - by intros service st1 info st2 -> ->.
Qed.



Context `{!ProviderClasses}.

Lemma builtin_lookup_default :
  builtin_providers !! "default" = Some default_provider.
Proof.
  unfold builtin_providers, registerProvider.
  change (toLowerCase "ollama") with "ollama".
  change (toLowerCase "openai") with "openai".
  change (toLowerCase "default") with "default".
  rewrite lookup_insert_ne by done. rewrite lookup_insert_ne by done.
  apply lookup_insert_eq.
Qed.

Lemma builtin_lookup_openai :
  builtin_providers !! "openai" = Some openai_provider.
Proof.
  unfold builtin_providers, registerProvider.
  change (toLowerCase "ollama") with "ollama".
  change (toLowerCase "openai") with "openai".
  rewrite lookup_insert_ne by done. apply lookup_insert_eq.
Qed.

Lemma builtin_lookup_ollama :
  builtin_providers !! "ollama" = Some ollama_provider.
Proof.
  unfold builtin_providers, registerProvider.
  change (toLowerCase "ollama") with "ollama".
  by rewrite lookup_insert_eq.
Qed.

(** X15.  With the built-in registrations, the provider [openai] (in any
    case) without an API key, or with an empty one, makes [createService]
    throw [API key is required for OpenAI embedding service] before the
    class is constructed: the state is untouched.  With a non-empty key the
    service is constructed as [createOpenAIService] constructs it from the
    same key, model, dimensions and endpoint. *)
Theorem createService_openai config st :
  providerName_of config = "openai" →
  (apiKey config = None ∨ apiKey config = Some EmptyString →
   createService config builtin_providers st
   = (Threw (Error "API key is required for OpenAI embedding service"), st))
  ∧ (∀ key, apiKey config = Some key → key ≠ EmptyString →
     createService config builtin_providers st =
       match createOpenAIService key (model config) (dimensions config)
               (apiEndpoint config) st with
       | (Returned service, st1) =>
           match Contract.getModelInfo service st1 with
           | (Returned _, st2) => (Returned service, st2)
           | (Threw e, st2) => (Threw e, st2)
           end
       | (Threw e, st1) => (Threw e, st1)
       end).
Proof.
  intros Hname.
  rewrite (createService_own config builtin_providers openai_provider st)
    by (rewrite Hname; apply builtin_lookup_openai).
  unfold openai_provider, createOpenAIService. split.
  - by intros [->| ->].
  - intros [|c rest] -> Hkey; [done|reflexivity].
Qed.

(** X16.  With the built-in registrations, the provider [ollama] (in any
    case) is always constructed, without a request and without a change of
    state; the service reports the model of the configuration, or
    [mxbai-embed-large] when it gives none, and version [1.0.0]. *)
Theorem createService_ollama_builtin config st :
  providerName_of config = "ollama" →
  ∃ service,
    createService config builtin_providers st = (Returned service, st)
    ∧ service
      = OllamaEmbeddingService.new
          {| OllamaEmbeddingService.cfg_apiEndpoint := apiEndpoint config;
             OllamaEmbeddingService.cfg_model := model config;
             OllamaEmbeddingService.cfg_dimensions := dimensions config;
             OllamaEmbeddingService.cfg_version := None |}
    ∧ ∃ dims,
        Contract.getModelInfo service st
        = (Returned {| Contract.name := or_default (model config) "mxbai-embed-large";
                       Contract.dimensions := dims;
                       Contract.version := "1.0.0" |}, st)
        ∧ truthy (Num dims) = true.
Proof.
  intros Hname.
  rewrite (createService_own config builtin_providers ollama_provider st)
    by (rewrite Hname; apply builtin_lookup_ollama).
  eexists. split; [reflexivity|]. split; [reflexivity|].
  eexists. split; [reflexivity|].
  cbn [OllamaEmbeddingService.dimensions OllamaEmbeddingService.constructor
       OllamaEmbeddingService.cfg_dimensions].
  unfold OllamaEmbeddingService.number_or_default.
  destruct (dimensions config) as [d|]; [|reflexivity].
  by destruct (truthy (Num d)) eqn:Hd.
Qed.

(** X17.  A configuration without a provider, or with the empty name,
    resolves to [default]; with the built-in registrations [createService]
    then builds the service [createDefaultService] builds from the
    dimensions of the configuration, reads its model information and
    returns it. *)
Theorem createService_default config st :
  (provider config = None ∨ provider config = Some EmptyString →
   providerName_of config = "default")
  ∧ (providerName_of config = "default" →
     createService config builtin_providers st =
       match Contract.getModelInfo (createDefaultService (dimensions config)) st with
       | (Returned _, st1) => (Returned (createDefaultService (dimensions config)), st1)
       | (Threw e, st1) => (Threw e, st1)
       end).
Proof.
  split.
  - unfold providerName_of. by intros [->| ->].
  - intros Hname.
    rewrite (createService_own config builtin_providers default_provider st)
      by (rewrite Hname; apply builtin_lookup_default).
    reflexivity.
Qed.

(** X18.  Only the exact value [true] of [MOCK_EMBEDDINGS] forces the
    default service: with any other value the variable is ignored, and
    [createFromEnvironment] does what it does without it. *)
Theorem createFromEnvironment_mock_exact (env : gmap string string)
    (providers : gmap string EmbeddingServiceProvider) st :
  env !! "MOCK_EMBEDDINGS" ≠ Some "true" →
  createFromEnvironment env providers st
  = createFromEnvironment (delete "MOCK_EMBEDDINGS" env) providers st.
Proof.
  intros Hmock. unfold createFromEnvironment. cbv zeta.
  rewrite bool_decide_eq_false_2 by done.
  rewrite bool_decide_eq_false_2 by (by rewrite lookup_delete_eq).
  unfold config_of_environment.
  by rewrite !lookup_delete_ne.
Qed.

(** X19.  Without the mock flag, when [createService] returns a service
    whose [getModelInfo] returns twice more, [createFromEnvironment] returns
    that service; when one of the two reads throws, it returns a default
    service instead. *)
Theorem createFromEnvironment_created (env : gmap string string)
    (providers : gmap string EmbeddingServiceProvider) st service st1 :
  env !! "MOCK_EMBEDDINGS" ≠ Some "true" →
  createService (config_of_environment env) providers st = (Returned service, st1) →
  (∀ info1 st2 info2 st3,
     Contract.getModelInfo service st1 = (Returned info1, st2) →
     Contract.getModelInfo service st2 = (Returned info2, st3) →
     createFromEnvironment env providers st = (Returned service, st3))
  ∧ (∀ e st2,
       Contract.getModelInfo service st1 = (Threw e, st2) →
       createFromEnvironment env providers st
       = (Returned (DefaultEmbeddingService None), st2))
  ∧ (∀ info1 st2 e st3,
       Contract.getModelInfo service st1 = (Returned info1, st2) →
       Contract.getModelInfo service st2 = (Threw e, st3) →
       createFromEnvironment env providers st
       = (Returned (DefaultEmbeddingService None), st3)).
Proof.
  intros Hmock Hcreate. unfold createFromEnvironment. cbv zeta.
  rewrite bool_decide_eq_false_2 by done.
  unfold try_catch, mbind, M_bind, mret, M_ret, bind, ret. rewrite Hcreate.
  repeat split.
  - by intros info1 st2 info2 st3 -> ->.
  - by intros e st2 ->.
  - by intros info1 st2 e st3 -> ->.
Qed.

(** X20.  Without the mock flag and with the built-in registrations, an
    environment whose provider is [ollama] (in any case) gives the Ollama
    service configured with the endpoint of [OLLAMA_API_ENDPOINT] and the
    model of [EMBEDDING_MODEL], with the default dimensions; nothing is
    requested. *)
Theorem createFromEnvironment_ollama (env : gmap string string) st :
  env !! "MOCK_EMBEDDINGS" ≠ Some "true" →
  toLowerCase (or_default (env !! "EMBEDDING_PROVIDER") "default") = "ollama" →
  createFromEnvironment env builtin_providers st
  = (Returned
       (OllamaEmbeddingService.new
          {| OllamaEmbeddingService.cfg_apiEndpoint := env !! "OLLAMA_API_ENDPOINT";
             OllamaEmbeddingService.cfg_model := env !! "EMBEDDING_MODEL";
             OllamaEmbeddingService.cfg_dimensions := None;
             OllamaEmbeddingService.cfg_version := None |}), st).
Proof.
  intros Hmock Hname. unfold createFromEnvironment. cbv zeta.
  rewrite bool_decide_eq_false_2 by done.
  unfold try_catch at 1. unfold mbind, M_bind, bind.
  assert (providerName_of (config_of_environment env) = "ollama") as Hresolved.
  { unfold providerName_of, config_of_environment. cbn [provider].
    destruct (env !! "EMBEDDING_PROVIDER") as [[|c rest]|]; exact Hname. }
  rewrite (createService_own (config_of_environment env) builtin_providers
             ollama_provider st)
    by (rewrite Hresolved; apply builtin_lookup_ollama).
  reflexivity.
Qed.

End FactoryMore.

Section FactoryMoreExamples.
Import EmbeddingServiceFactory ScriptedProviders.
#[local] Existing Instance Scripted.runtime.
#[local] Existing Instance ScriptedProviders.classes.


(** X12, witness: a constructor that always throws. *)
Lemma createService_propagates_witness :
  createService (only_provider "flaky") (registerProvider "Flaky" failing ∅)
    (Scripted.start [])
  = (Threw (Error "cannot construct"), Scripted.start []).
Proof.
  refine (proj1 (createService_propagates (only_provider "flaky")
                   (registerProvider "Flaky" failing ∅) failing (Scripted.start []) _)
            (Error "cannot construct") (Scripted.start []) _); reflexivity.
Defined.


(** X15, witness: [OpenAI] with an empty key. *)
Lemma createService_openai_witness :
  createService
    {| provider := Some "OpenAI"; model := None; dimensions := None;
       apiKey := Some EmptyString; apiEndpoint := None |}
    builtin_providers (Scripted.start [])
  = (Threw (Error "API key is required for OpenAI embedding service"),
     Scripted.start []).
Proof.
  refine (proj1 (createService_openai
                   {| provider := Some "OpenAI"; model := None; dimensions := None;
                      apiKey := Some EmptyString; apiEndpoint := None |}
                   (Scripted.start []) _) _).
  - reflexivity.
  - by right.
Defined.

(** X16, witness: [OLLAMA] with a model. *)
Lemma createService_ollama_builtin_witness :
  ∃ service,
    createService
      {| provider := Some "OLLAMA"; model := Some "nomic-embed-text";
         dimensions := Some 768%float; apiKey := None; apiEndpoint := None |}
      builtin_providers (Scripted.start [])
    = (Returned service, Scripted.start [])
    ∧ ∃ dims,
        Contract.getModelInfo service (Scripted.start [])
        = (Returned {| Contract.name := "nomic-embed-text";
                       Contract.dimensions := dims;
                       Contract.version := "1.0.0" |}, Scripted.start [])
        ∧ truthy (Num dims) = true.
Proof.
  destruct (createService_ollama_builtin
              {| provider := Some "OLLAMA"; model := Some "nomic-embed-text";
                 dimensions := Some 768%float; apiKey := None; apiEndpoint := None |}
              (Scripted.start []) eq_refl) as (service & Hrun & _ & Hinfo).
  exists service. split; [exact Hrun|exact Hinfo].
Defined.

(** X18, witness: the flag set to [TRUE]. *)
Lemma createFromEnvironment_mock_exact_witness :
  createFromEnvironment
    {[ "MOCK_EMBEDDINGS" := "TRUE"; "EMBEDDING_PROVIDER" := "ollama" ]}
    builtin_providers (Scripted.start [])
  = createFromEnvironment
      (delete "MOCK_EMBEDDINGS"
         {[ "MOCK_EMBEDDINGS" := "TRUE"; "EMBEDDING_PROVIDER" := "ollama" ]})
      builtin_providers (Scripted.start []).
Proof.
  apply (createFromEnvironment_mock_exact
           {[ "MOCK_EMBEDDINGS" := "TRUE"; "EMBEDDING_PROVIDER" := "ollama" ]}
           builtin_providers (Scripted.start [])).
  vm_compute. discriminate.
Defined.

(** X19, witness: a custom provider named by the environment. *)
Lemma createFromEnvironment_created_witness :
  createFromEnvironment {[ "EMBEDDING_PROVIDER" := "Custom" ]}
    (registerProvider "custom" custom ∅) (Scripted.start [])
  = (Returned (unit_service "custom" 3%float), Scripted.start []).
Proof.
  refine (proj1 (createFromEnvironment_created {[ "EMBEDDING_PROVIDER" := "Custom" ]}
                   (registerProvider "custom" custom ∅) (Scripted.start [])
                   (unit_service "custom" 3%float) (Scripted.start []) _ _)
            _ (Scripted.start []) _ (Scripted.start []) _ _).
  - vm_compute. discriminate.
  - vm_compute. reflexivity.
  - reflexivity.
  - reflexivity.
Defined.

(** X20, witness: an environment that names [Ollama], a model and an
    endpoint. *)
Lemma createFromEnvironment_ollama_witness :
  createFromEnvironment
    {[ "EMBEDDING_PROVIDER" := "Ollama"; "EMBEDDING_MODEL" := "nomic-embed-text";
       "OLLAMA_API_ENDPOINT" := "http://gpu:11434/api/embeddings" ]}
    builtin_providers (Scripted.start [])
  = (Returned
       (OllamaEmbeddingService.new
          {| OllamaEmbeddingService.cfg_apiEndpoint := Some "http://gpu:11434/api/embeddings";
             OllamaEmbeddingService.cfg_model := Some "nomic-embed-text";
             OllamaEmbeddingService.cfg_dimensions := None;
             OllamaEmbeddingService.cfg_version := None |}), Scripted.start []).
Proof.
  etransitivity.
  - apply (createFromEnvironment_ollama
             {[ "EMBEDDING_PROVIDER" := "Ollama"; "EMBEDDING_MODEL" := "nomic-embed-text";
                "OLLAMA_API_ENDPOINT" := "http://gpu:11434/api/embeddings" ]}
             (Scripted.start [])).
    + vm_compute. discriminate.
    + vm_compute. reflexivity.
  - vm_compute. reflexivity.
Defined.

End FactoryMoreExamples.
